(** * snakemake_magic: a shallow embedding of the IPython magics in
    [prototype/snakemake_magic.py].

    The magics are stateful Python methods.  They are modelled in a small
    state/exception monad over a [World] that holds the class attributes of
    [SnakemakeMagic] ([workflow], [tempfiles], [updated_rules]), the file
    system, the engine's module-global [config] and a trace of the calls made
    into the external workflow engine.  The engine itself (snakemake) is an
    opaque collaborator: it is a record of functions, [Engine]. *)

From Stdlib Require Import QArith_base Ascii String.
From stdpp Require Import base gmap strings list pretty.

Open Scope string_scope.
Open Scope list_scope.

(** ** The parsed command line ([argparse.Namespace] of
    [snakemake.get_argument_parser]); only the attributes the magic reads. *)
Record Args := {
  a_target : list string;
  a_dryrun : bool;
  a_printshellcmds : bool;
  a_reason : bool;
  a_rulegraph : bool;
  a_d3dag : bool;
  a_touch : bool;
  a_forceall : bool;
  a_forcerun : option (list string);
  a_prioritize : option (list string);
  a_until : option (list string);
  a_omit_from : option (list string);
  a_stats : option string;
  a_nocolor : bool;
  a_quiet : bool;
  a_keep_going : bool;
  a_allow_ambiguity : bool;
  a_nolock : bool;
  a_unlock : bool;
  a_rerun_incomplete : bool;
  a_ignore_incomplete : bool;
  a_list_version_changes : bool;
  a_list_code_changes : bool;
  a_list_input_changes : bool;
  a_list_params_changes : bool;
  a_summary : bool;
  a_detailed_summary : bool;
  a_print_compilation : bool;
  a_verbose : bool;
  a_debug : bool;
  a_notemp : bool;
  a_keep_remote : bool;
  a_greediness : option Q;
  a_latency_wait : Z;
  a_benchmark_repeats : Z;
  a_keep_target_files : bool
}.

(** ** The keyword arguments of [workflow.execute(...)] (lines 141-175). *)
Record ExecConfig (Resources : Type) := {
  ex_targets : list string;
  ex_dryrun : bool;
  ex_touch : bool;
  ex_forceall : bool;
  ex_forcerun : gset string;
  ex_until : option (list string);
  ex_omit_from : option (list string);
  ex_quiet : bool;
  ex_keepgoing : bool;
  ex_printshellcmds : bool;
  ex_printreason : bool;
  ex_printrulegraph : bool;
  ex_printd3dag : bool;
  ex_ignore_ambiguity : bool;
  ex_stats : option string;
  ex_force_incomplete : bool;
  ex_ignore_incomplete : bool;
  ex_list_version_changes : bool;
  ex_list_code_changes : bool;
  ex_list_input_changes : bool;
  ex_list_params_changes : bool;
  ex_summary : bool;
  ex_latency_wait : Z;
  ex_benchmark_repeats : Z;
  ex_wait_for_files : option (list string);
  ex_detailed_summary : bool;
  ex_nolock : bool;
  ex_unlock : bool;
  ex_notemp : bool;
  ex_keep_remote_local : bool;
  ex_keep_target_files : bool;
  ex_updated_files : list string;
  ex_resources : Resources
}.
Arguments ex_forcerun {_} _.
Arguments ex_nolock {_} _.
Arguments ex_targets {_} _.

(** ** A [snakemake.workflow.Workflow] object: an identity (Python objects
    are compared by identity), the snakefile it was built with, and its
    [_rules] dict from rule names to rules. *)
Record Workflow (Rule : Type) := {
  wf_id : nat;
  wf_snakefile : string;
  wf_rules : gmap string Rule
}.
Arguments wf_id {_} _.
Arguments wf_snakefile {_} _.
Arguments wf_rules {_} _.

(** ** Calls into the engine and file-system effects, in program order. *)
Inductive Event (Resources : Type) :=
| ENewTemp (path : string)
| EWrite (path contents : string)
| EClose (path : string)
| EUnlink (path : string)
| ENewWorkflow (snakefile : string)
| ECheck
| EExecute (cfg : ExecConfig Resources)
| EInclude (path : string) (overwrite_first_rule : bool)
| ELoadConfig (path : string)
| EConfigUpdate.
Arguments ENewTemp {_} _.
Arguments EWrite {_} _ _.
Arguments EClose {_} _.
Arguments EUnlink {_} _.
Arguments ENewWorkflow {_} _.
Arguments ECheck {_}.
Arguments EExecute {_} _.
Arguments EInclude {_} _ _.
Arguments ELoadConfig {_} _.
Arguments EConfigUpdate {_}.

(** ** The state: class attributes of [SnakemakeMagic], the file system,
    [snakemake.workflow.config], a supply of object identities, and the
    trace of effects. *)
Record World (Rule CV Resources : Type) := {
  w_workflow : option (Workflow Rule);
  w_root : option string;            (* tempfiles['root'] *)
  w_cells : list string;             (* tempfiles['cells'] *)
  w_updated : list string;           (* updated_rules *)
  w_fs : gmap string string;         (* path -> file contents *)
  w_config : gmap string CV;         (* snakemake.workflow.config *)
  w_next_id : nat;
  w_trace : list (Event Resources)
}.
Arguments w_workflow {_ _ _} _.
Arguments w_root {_ _ _} _.
Arguments w_cells {_ _ _} _.
Arguments w_updated {_ _ _} _.
Arguments w_fs {_ _ _} _.
Arguments w_config {_ _ _} _.
Arguments w_next_id {_ _ _} _.
Arguments w_trace {_ _ _} _.

(** ** The external engine (snakemake, shlex), an opaque collaborator.
    Functions that can raise return [option]. *)
Record Engine (Rule CV Resources : Type) := {
  (* shlex.split: raises ValueError on unbalanced quotes *)
  shlex_split : string -> option (list string);
  (* get_argument_parser().parse_args: exits on a bad command line *)
  parse_args : list string -> option Args;
  parse_resources : Args -> option Resources;
  (* workflow.check(): raises on an inconsistent workflow *)
  engine_check : Workflow Rule -> bool;
  (* workflow.execute(...): the success indicator *)
  engine_execute : ExecConfig Resources -> Workflow Rule -> bool;
  (* workflow.execute(...): the files its jobs write or remove *)
  execute_files : ExecConfig Resources -> Workflow Rule ->
                  gmap string string -> gmap string string;
  (* snakemake.parser.parse(path)[0], applied to the file's contents *)
  snake_parse : string -> option string;
  (* workflow.include(path, overwrite_first_rule), on the file's contents:
     it executes the compiled snakefile, which defines rules and may, through
     its directives ([workdir:], [configfile:]) or plain Python code, change
     the file system and the config.  It returns the rule table, the file
     system and the config after the execution, and whether it completed
     (false: it raised, after the effects it had made so far). *)
  engine_include : string -> bool -> gmap string Rule -> gmap string string ->
                   gmap string CV ->
                   gmap string Rule * gmap string string * gmap string CV * bool;
  (* snakemake.io.load_configfile, on the file's contents *)
  load_configfile : string -> option (gmap string CV)
}.
Arguments shlex_split {_ _ _} _ _.
Arguments parse_args {_ _ _} _ _.
Arguments parse_resources {_ _ _} _ _.
Arguments engine_check {_ _ _} _ _.
Arguments engine_execute {_ _ _} _ _ _.
Arguments execute_files {_ _ _} _ _ _ _.
Arguments snake_parse {_ _ _} _ _.
Arguments engine_include {_ _ _} _ _ _ _ _ _.
Arguments load_configfile {_ _ _} _ _.

(** ** A state monad with Python exceptions. *)
Inductive Outcome (A : Type) :=
| Ok (a : A)
| Raise (msg : string).
Arguments Ok {_} _.
Arguments Raise {_} _.

Section Magic.
Context {Rule CV Resources : Type} (E : Engine Rule CV Resources).

Abbreviation World := (World Rule CV Resources).
Abbreviation Workflow := (Workflow Rule).
Abbreviation Event := (Event Resources).
Abbreviation ExecConfig := (ExecConfig Resources).

Definition M (A : Type) : Type := World -> Outcome A * World.

#[global] Instance M_ret : MRet M := fun A a w => (Ok a, w).
#[global] Instance M_bind : MBind M := fun A B f m w =>
  match m w with
  | (Ok a, w') => f a w'
  | (Raise e, w') => (Raise e, w')
  end.

Definition raise {A} (msg : string) : M A := fun w => (Raise msg, w).
Definition gets {A} (f : World -> A) : M A := fun w => (Ok (f w), w).
Definition modify (f : World -> World) : M unit := fun w => (Ok tt, f w).
Definition lift_opt {A} (msg : string) (o : option A) : M A :=
  match o with Some a => mret a | None => raise msg end.

(** Field updates of the state. *)
Definition set_workflow (o : option Workflow) (w : World) : World :=
  {| w_workflow := o; w_root := w_root w; w_cells := w_cells w;
     w_updated := w_updated w; w_fs := w_fs w; w_config := w_config w;
     w_next_id := w_next_id w; w_trace := w_trace w |}.
Definition set_root (p : string) (w : World) : World :=
  {| w_workflow := w_workflow w; w_root := Some p; w_cells := w_cells w;
     w_updated := w_updated w; w_fs := w_fs w; w_config := w_config w;
     w_next_id := w_next_id w; w_trace := w_trace w |}.
Definition push_cell (p : string) (w : World) : World :=
  {| w_workflow := w_workflow w; w_root := w_root w; w_cells := w_cells w ++ [p];
     w_updated := w_updated w; w_fs := w_fs w; w_config := w_config w;
     w_next_id := w_next_id w; w_trace := w_trace w |}.
Definition set_updated (l : list string) (w : World) : World :=
  {| w_workflow := w_workflow w; w_root := w_root w; w_cells := w_cells w;
     w_updated := l; w_fs := w_fs w; w_config := w_config w;
     w_next_id := w_next_id w; w_trace := w_trace w |}.
Definition set_fs (fs : gmap string string) (w : World) : World :=
  {| w_workflow := w_workflow w; w_root := w_root w; w_cells := w_cells w;
     w_updated := w_updated w; w_fs := fs; w_config := w_config w;
     w_next_id := w_next_id w; w_trace := w_trace w |}.
Definition set_config (c : gmap string CV) (w : World) : World :=
  {| w_workflow := w_workflow w; w_root := w_root w; w_cells := w_cells w;
     w_updated := w_updated w; w_fs := w_fs w; w_config := c;
     w_next_id := w_next_id w; w_trace := w_trace w |}.
Definition bump_id (w : World) : World :=
  {| w_workflow := w_workflow w; w_root := w_root w; w_cells := w_cells w;
     w_updated := w_updated w; w_fs := w_fs w; w_config := w_config w;
     w_next_id := S (w_next_id w); w_trace := w_trace w |}.
Definition emit (e : Event) : M unit := fun w =>
  (Ok tt, {| w_workflow := w_workflow w; w_root := w_root w; w_cells := w_cells w;
             w_updated := w_updated w; w_fs := w_fs w; w_config := w_config w;
             w_next_id := w_next_id w; w_trace := w_trace w ++ [e] |}).

(** ** Files.  [tempfile.NamedTemporaryFile('w', ...)] creates a new empty
    file whose name no existing file has. *)
Definition named_temp : M string :=
  fs ← gets w_fs;
  let p := fresh (dom fs) in
  modify (set_fs (<[p := ""]> fs));;
  emit (ENewTemp p);;
  mret p.

Definition file_write (p contents : string) : M unit :=
  fs ← gets w_fs;
  match fs !! p with
  | Some old => modify (set_fs (<[p := old +:+ contents]> fs));; emit (EWrite p contents)
  | None => raise "ValueError: I/O operation on closed file"
  end.

Definition file_close (p : string) : M unit := emit (EClose p).

(** [os.unlink(path)] *)
Definition unlink (p : string) : M unit :=
  fs ← gets w_fs;
  match fs !! p with
  | Some _ => modify (set_fs (delete p fs));; emit (EUnlink p)
  | None => raise "FileNotFoundError"
  end.

Definition read_file (p : string) : M string :=
  fs ← gets w_fs;
  lift_opt "FileNotFoundError" (fs !! p).

(** ** [Workflow(snakefile=...)]: a fresh object with no rules.  Its
    [__init__] rebinds the module-global [snakemake.workflow.config] to a
    copy of [overwrite_config], an empty dict by default. *)
Definition new_workflow (snakefile : string) : M Workflow :=
  id ← gets w_next_id;
  modify bump_id;;
  emit (ENewWorkflow snakefile);;
  modify (set_config ∅);;
  mret {| wf_id := id; wf_snakefile := snakefile; wf_rules := ∅ |}.

(** ** [SnakemakeMagic.get_workflow] (lines 51-67). *)
Definition get_workflow : M Workflow :=
  cur ← gets w_workflow;
  match cur with
  | Some wf => mret wf
  | None =>
      root ← named_temp;
      modify (set_root root);;
      wf ← new_workflow root;
      modify (set_workflow (Some wf));;
      mret wf
  end.

(** ** [rule_rexp = re.compile(r'^\s*@workflow.rule\s*\(name=\s*\'([^\']+)\'')]
    and [rule_rexp.match(line).group(1)].  Python's [\s] on ASCII text is
    the characters 9-13 and 28-32.  Every quantifier is followed by a
    character the quantified class excludes, so the greedy match needs no
    backtracking. *)
Definition is_space (c : ascii) : bool :=
  let n := nat_of_ascii c in
  (Nat.leb 9 n && Nat.leb n 13) || (Nat.leb 28 n && Nat.leb n 32).

Fixpoint skip_space (l : list ascii) : list ascii :=
  match l with
  | c :: r => if is_space c then skip_space r else l
  | [] => []
  end.

Fixpoint strip_prefix (p l : list ascii) : option (list ascii) :=
  match p, l with
  | [], _ => Some l
  | c :: p', d :: l' => if Ascii.eqb c d then strip_prefix p' l' else None
  | _ :: _, [] => None
  end.

(** [[^']*] then the rest. *)
Fixpoint take_nonquote (l : list ascii) : list ascii * list ascii :=
  match l with
  | c :: r =>
      if Ascii.eqb c "'"%char then ([], l)
      else let '(g, rest) := take_nonquote r in (c :: g, rest)
  | [] => ([], [])
  end.

Definition newline : ascii := ascii_of_nat 10.

Definition rule_rexp_match (line : string) : option string :=
  l1 ← strip_prefix (list_ascii_of_string "@workflow")
                    (skip_space (list_ascii_of_string line));
  match l1 with
  | [] => None
  | c :: l2 =>
      if Ascii.eqb c newline then None else
      l3 ← strip_prefix (list_ascii_of_string "rule") l2;
      l4 ← strip_prefix (list_ascii_of_string "(name=") (skip_space l3);
      l5 ← strip_prefix (list_ascii_of_string "'") (skip_space l4);
      match take_nonquote l5 with
      | ((_ :: _) as g, _ :: _) => Some (string_of_list_ascii g)
      | _ => None
      end
  end.

(** [s.split("\n")] *)
Fixpoint split_nl (l : list ascii) : list (list ascii) :=
  match l with
  | [] => [[]]
  | c :: r =>
      let rest := split_nl r in
      if Ascii.eqb c newline then [] :: rest
      else match rest with
           | x :: xs => (c :: x) :: xs
           | [] => [[c]]
           end
  end.

Definition split_lines (s : string) : list string :=
  map string_of_list_ascii (split_nl (list_ascii_of_string s)).

(** ** [get_rule_names(snakefile_name)] (lines 23-32): the rule names
    matched in the parsed (compiled) snakefile, in order. *)
Definition rule_names_of_code (code : string) : list string :=
  omap rule_rexp_match (split_lines code).

Definition get_rule_names (p : string) : M (list string) :=
  contents ← read_file p;
  code ← lift_opt "SyntaxError" (snake_parse E contents);
  mret (rule_names_of_code code).

(** ** Operations on the session object.  The local [workflow] of a magic
    is the object [self.workflow] refers to, so mutating it updates the
    session in place. *)
Definition set_rules (rs : gmap string Rule) (w : World) : World :=
  match w_workflow w with
  | Some wf => set_workflow (Some {| wf_id := wf_id wf; wf_snakefile := wf_snakefile wf;
                                    wf_rules := rs |}) w
  | None => w
  end.

Definition session_rules (w : World) : gmap string Rule :=
  match w_workflow w with Some wf => wf_rules wf | None => ∅ end.

(** [workflow._rules.pop(rule_name, None); self.updated_rules.append(rule_name)] *)
Definition pop_and_record (rule_name : string) : M unit :=
  rs ← gets session_rules;
  modify (set_rules (delete rule_name rs));;
  upd ← gets w_updated;
  modify (set_updated (upd ++ [rule_name])).

Fixpoint pop_and_record_all (names : list string) : M unit :=
  match names with
  | [] => mret ()
  | n :: r => pop_and_record n;; pop_and_record_all r
  end.

(** [workflow.include(path, overwrite_first_rule=...)] *)
Definition include (p : string) (overwrite_first_rule : bool) : M unit :=
  emit (EInclude p overwrite_first_rule);;
  contents ← read_file p;
  rs ← gets session_rules;
  fs ← gets w_fs;
  cfg ← gets w_config;
  let '(rs', fs', cfg', completed) :=
    engine_include E contents overwrite_first_rule rs fs cfg in
  modify (set_rules rs');;
  modify (set_fs fs');;
  modify (set_config cfg');;
  if completed then mret () else raise "WorkflowError".

(** [workflow.check()] *)
Definition check (wf : Workflow) : M unit :=
  emit ECheck;;
  if engine_check E wf then mret () else raise "WorkflowError".

(** [workflow.execute(...)] with the keyword arguments [cfg]: the jobs it
    runs write their output files. *)
Definition execute (cfg : ExecConfig) (wf : Workflow) : M bool :=
  emit (EExecute cfg);;
  fs ← gets w_fs;
  modify (set_fs (execute_files E cfg wf fs));;
  mret (engine_execute E cfg wf).

(** ** [SnakemakeMagic.snakemake] (lines 69-180). *)
Definition snakemake (line : string) : M bool :=
  cur ← gets w_workflow;
  match cur with
  | None => raise "Workflow has no data!"
  | Some _ =>
  toks ← lift_opt "ValueError" (shlex_split E line);
  args ← lift_opt "SystemExit" (parse_args E toks);
  resources ← lift_opt "ValueError" (parse_resources E args);
  updated_rules ← gets w_updated;
  let forcerun : gset string :=
    list_to_set (match a_forcerun args with
                 | Some l => l
                 | None => [] ++ updated_rules
                 end) in
  let prioritytargets := a_prioritize args in
  let lock := negb (a_nolock args) in
  let greediness_ok :=
    match a_greediness args with
    | None => true
    | Some g => Qle_bool 0 g && Qle_bool g 1
    end in
  if negb greediness_ok then mret false else
  workflow ← get_workflow;
  let lock := false in
  check workflow;;
  success ← execute
    {| ex_targets := a_target args;
       ex_dryrun := a_dryrun args;
       ex_touch := a_touch args;
       ex_forceall := a_forceall args;
       ex_forcerun := forcerun;
       ex_until := a_until args;
       ex_omit_from := a_omit_from args;
       ex_quiet := a_quiet args;
       ex_keepgoing := a_keep_going args;
       ex_printshellcmds := a_printshellcmds args;
       ex_printreason := a_reason args;
       ex_printrulegraph := a_rulegraph args;
       ex_printd3dag := a_d3dag args;
       ex_ignore_ambiguity := a_allow_ambiguity args;
       ex_stats := a_stats args;
       ex_force_incomplete := a_rerun_incomplete args;
       ex_ignore_incomplete := a_ignore_incomplete args;
       ex_list_version_changes := a_list_version_changes args;
       ex_list_code_changes := a_list_code_changes args;
       ex_list_input_changes := a_list_input_changes args;
       ex_list_params_changes := a_list_params_changes args;
       ex_summary := a_summary args;
       ex_latency_wait := a_latency_wait args;
       ex_benchmark_repeats := a_benchmark_repeats args;
       ex_wait_for_files := None;
       ex_detailed_summary := a_detailed_summary args;
       ex_nolock := negb lock;
       ex_unlock := a_unlock args;
       ex_notemp := a_notemp args;
       ex_keep_remote_local := a_keep_remote args;
       ex_keep_target_files := a_keep_target_files args;
       ex_updated_files := [];
       ex_resources := resources |} workflow;
  (if (success : bool) then modify (set_updated []) else mret tt : M unit);;
  mret success
  end.

(** ** [SnakemakeMagic.sinclude], lines 186-202: everything before the
    [include] call.  Returns the staged path and the flag. *)
Definition sinclude_stage (cell : string) : M (string * bool) :=
  workflow ← get_workflow;
  cell_snakefile ← named_temp;
  modify (push_cell cell_snakefile);;
  file_write cell_snakefile cell;;
  file_close cell_snakefile;;
  let overwrite_first_rule := bool_decide (size (wf_rules workflow) = 0) in
  names ← get_rule_names cell_snakefile;
  pop_and_record_all names;;
  mret (cell_snakefile, overwrite_first_rule).

(** ** [SnakemakeMagic.sinclude] (lines 182-210). *)
Definition sinclude (line cell : string) : M string :=
  '(cell_snakefile, overwrite_first_rule) ← sinclude_stage cell;
  include cell_snakefile overwrite_first_rule;;
  unlink cell_snakefile;;
  rs ← gets session_rules;
  mret ("Workflow now has " +:+ pretty (size rs) +:+ " rules").

(** ** [SnakemakeMagic.sconfig] (lines 212-225). *)
Definition sconfig (line cell : string) : M unit :=
  _ ← get_workflow;
  cell_config_file ← named_temp;
  file_write cell_config_file cell;;
  file_close cell_config_file;;
  emit (ELoadConfig cell_config_file);;
  contents ← read_file cell_config_file;
  loaded ← lift_opt "YAMLError" (load_configfile E contents);
  emit EConfigUpdate;;
  cfg ← gets w_config;
  modify (set_config (loaded ∪ cfg));;
  unlink cell_config_file.

(** ** [SnakemakeMagic._workflow] (lines 227-231). *)
Definition _workflow (line : string) : M Workflow := get_workflow.

(** ** [SnakemakeMagic._reset_workflow] (lines 233-235). *)
Definition _reset_workflow (line : string) : M unit :=
  modify (set_workflow None).


(** ** Auxiliary notions for the proofs. *)

(** The session object after [_rules.pop(n, None)] for each [n] in turn. *)
Definition drop_rules (wf : Workflow) (names : list string) : Workflow :=
  {| wf_id := wf_id wf; wf_snakefile := wf_snakefile wf;
     wf_rules := foldl (fun rs n => delete n rs) (wf_rules wf) names |}.

(** A computation whose first new trace event is [e] and whose later new
    events include no [include] call. *)
Definition emits_first {A} (e : Event) (m : M A) : Prop :=
  forall w o w', m w = (o, w') ->
  exists evs, w_trace w' = w_trace w ++ e :: evs /\ forall q f, EInclude q f ∉ evs.

(** A computation whose new trace events include no [include] call. *)
Definition no_include {A} (m : M A) : Prop :=
  forall w o w', m w = (o, w') ->
  exists evs, w_trace w' = w_trace w ++ evs /\ forall q f, EInclude q f ∉ evs.

End Magic.

(** ** A small concrete engine, to run the magics on example sessions.
    Snakefile text is taken as already compiled (the [parse] step is the
    identity), the command line is split at spaces, and the option parser
    knows [--forcerun NAMES] and [--nolock]. *)
Module TestEngine.

Fixpoint split_at_space (l : list ascii) : list (list ascii) :=
  match l with
  | [] => [[]]
  | c :: r =>
      let rest := split_at_space r in
      if Ascii.eqb c " "%char then [] :: rest
      else match rest with
           | x :: xs => (c :: x) :: xs
           | [] => [[c]]
           end
  end.

Definition words (s : string) : list string :=
  filter (fun t => bool_decide (t ≠ ""))
         (map string_of_list_ascii (split_at_space (list_ascii_of_string s))).

Definition mk_args (targets : list string) (forcerun : option (list string))
  (nolock : bool) : Args :=
  {| a_target := targets; a_dryrun := false; a_printshellcmds := false;
     a_reason := false; a_rulegraph := false; a_d3dag := false; a_touch := false;
     a_forceall := false; a_forcerun := forcerun; a_prioritize := None;
     a_until := None; a_omit_from := None; a_stats := None; a_nocolor := false;
     a_quiet := false; a_keep_going := false; a_allow_ambiguity := false;
     a_nolock := nolock; a_unlock := false; a_rerun_incomplete := false;
     a_ignore_incomplete := false; a_list_version_changes := false;
     a_list_code_changes := false; a_list_input_changes := false;
     a_list_params_changes := false; a_summary := false;
     a_detailed_summary := false; a_print_compilation := false;
     a_verbose := false; a_debug := false; a_notemp := false;
     a_keep_remote := false; a_greediness := None; a_latency_wait := 5%Z;
     a_benchmark_repeats := 1%Z; a_keep_target_files := false |}.

Definition parse (toks : list string) : option Args :=
  match toks with
  | "--forcerun" :: names => Some (mk_args [] (Some names) false)
  | "--nolock" :: targets => Some (mk_args targets None true)
  | targets => Some (mk_args targets None false)
  end.

Definition add_rules (code : string) (rs : gmap string unit) : gmap string unit :=
  foldl (fun acc n => <[n := tt]> acc) rs (rule_names_of_code code).

(** Every target is written by the run. *)
Definition write_targets (cfg : ExecConfig unit) (fs : gmap string string)
  : gmap string string :=
  foldl (fun m t => <[t := "done"]> m) fs (ex_targets cfg).

Definition engine : Engine unit string unit :=
  {| shlex_split := fun s => Some (words s);
     parse_args := parse;
     parse_resources := fun _ => Some tt;
     engine_check := fun _ => true;
     engine_execute := fun _ _ => true;
     execute_files := fun cfg _ fs => write_targets cfg fs;
     snake_parse := fun c => Some c;
     engine_include := fun c _ rs fs cfg => (add_rules c rs, fs, cfg, true);
     load_configfile := fun c => Some {[ "key" := c ]} |}.

Definition w0 : World unit string unit :=
  {| w_workflow := None; w_root := None; w_cells := []; w_updated := [];
     w_fs := ∅; w_config := ∅; w_next_id := 0; w_trace := [] |}.

(** A cell defining rule [a], already in the compiled form the regexp of
    [get_rule_names] reads. *)
Definition cellA : string := "@workflow.rule(name='a', lineno=1)
def __rule_a(input, output): pass".

(** A session after one [%%sinclude] of [cellA]. *)
Definition run_inc := Eval vm_compute in sinclude engine "" cellA w0.
Definition o_inc := fst run_inc.
Definition w_inc := snd run_inc.
Definition ev_inc := Eval vm_compute in w_trace w_inc.

(** [%snakemake t] in that session. *)
Definition run_t := Eval vm_compute in snakemake engine "t" w_inc.
Definition o_t := fst run_t.
Definition w_t := snd run_t.
Definition ev_t := Eval vm_compute in drop (length (w_trace w_inc)) (w_trace w_t).

(** [%snakemake --forcerun b] in that session. *)
Definition run_fb := Eval vm_compute in snakemake engine "--forcerun b" w_inc.
Definition ev_fb := Eval vm_compute in drop (length (w_trace w_inc)) (w_trace (snd run_fb)).

(** [%%sconfig] of a one-line cell in a fresh kernel. *)
Definition cellC : string := "threads: 4".

(** Variants of [engine] with one collaborator replaced. *)
Definition engine_with (chk : bool) (pa : list string -> option Args)
  (sp : string -> option string) (lc : string -> option (gmap string string))
  : Engine unit string unit :=
  {| shlex_split := fun s => Some (words s);
     parse_args := pa;
     parse_resources := fun _ => Some tt;
     engine_check := fun _ => chk;
     engine_execute := fun _ _ => true;
     execute_files := fun cfg _ fs => write_targets cfg fs;
     snake_parse := sp;
     engine_include := fun c _ rs fs cfg => (add_rules c rs, fs, cfg, true);
     load_configfile := lc |}.

(** A command line with [--greediness 2]. *)
Definition greedy_args : Args :=
  {| a_target := []; a_dryrun := false; a_printshellcmds := false;
     a_reason := false; a_rulegraph := false; a_d3dag := false; a_touch := false;
     a_forceall := false; a_forcerun := None; a_prioritize := None;
     a_until := None; a_omit_from := None; a_stats := None; a_nocolor := false;
     a_quiet := false; a_keep_going := false; a_allow_ambiguity := false;
     a_nolock := false; a_unlock := false; a_rerun_incomplete := false;
     a_ignore_incomplete := false; a_list_version_changes := false;
     a_list_code_changes := false; a_list_input_changes := false;
     a_list_params_changes := false; a_summary := false;
     a_detailed_summary := false; a_print_compilation := false;
     a_verbose := false; a_debug := false; a_notemp := false;
     a_keep_remote := false; a_greediness := Some (2 # 1)%Q; a_latency_wait := 5%Z;
     a_benchmark_repeats := 1%Z; a_keep_target_files := false |}.

Definition engine_greedy := engine_with true (fun _ => Some greedy_args)
  (fun c => Some c) (fun c => Some {[ "key" := c ]}).
(** [workflow.check()] raises. *)
Definition engine_nocheck := engine_with false parse
  (fun c => Some c) (fun c => Some {[ "key" := c ]}).
(** [snakemake.parser.parse] raises. *)
Definition engine_noparse := engine_with true parse
  (fun _ => None) (fun c => Some {[ "key" := c ]}).
(** [load_configfile] raises. *)
Definition engine_noload := engine_with true parse (fun c => Some c) (fun _ => None).

End TestEngine.

Section Proofs.
Context {Rule CV Resources : Type} (E : Engine Rule CV Resources).

Abbreviation World := (World Rule CV Resources).
Abbreviation Event := (Event Resources).
Abbreviation ExecConfig := (ExecConfig Resources).


Ltac unfold_magic :=
  unfold snakemake, get_workflow, check, execute, emit, modify, gets,
    lift_opt, raise, mbind, M_bind, mret, M_ret, set_updated in *.

(** Trace bookkeeping: strip the common prefix [w_trace w] from an
    equation [w_trace w ++ xs = w_trace w ++ ev]. *)
Lemma app_inv_self {A} (l ev : list A) : l = l ++ ev -> ev = [].
Proof. intros H. rewrite <- (app_nil_r l) in H at 1. apply app_inv_head in H. done. Qed.

Ltac new_events H :=
  simpl in H; repeat rewrite <- app_assoc in H; simpl in H;
  first [ apply app_inv_self in H | apply app_inv_head in H ]; subst.

(** One case split of a run of [snakemake] on the value the engine returns. *)
Ltac snake_step H :=
  match type of H with
  | context [w_workflow ?w] =>
      match goal with Hw : w_workflow w = _ |- _ => rewrite Hw in H end
  | context [shlex_split ?E ?l] => destruct (shlex_split E l) eqn:?
  | context [parse_args ?E ?t] => destruct (parse_args E t) eqn:?
  | context [parse_resources ?E ?a] => destruct (parse_resources E a) eqn:?
  | context [a_greediness ?a] => destruct (a_greediness a) eqn:?
  | context [Qle_bool ?x ?y] => destruct (Qle_bool x y) eqn:?
  | context [engine_check ?E ?wf] => destruct (engine_check E wf) eqn:?
  | context [engine_execute ?E ?c ?wf] => destruct (engine_execute E c wf) eqn:?
  end; simpl in H.

(** Membership of an event in a concrete list of new events. *)
Ltac in_events H :=
  repeat match type of H with
  | _ ∈ _ :: _ => apply elem_of_cons in H; destruct H as [H|H]
  | _ ∈ [] => apply elem_of_nil in H; contradiction
  | EExecute _ = EExecute _ => injection H as H; subst
  | _ = _ => discriminate H
  end.

Ltac snake_cases H :=
  unfold_magic; simpl in H; repeat snake_step H; injection H as <- <-.

(** C2: without a session, [snakemake] raises and leaves the state, and so
    the trace of engine calls, untouched. *)
Theorem snakemake_no_session (line : string) (w : World) :
  w_workflow w = None ->
  snakemake E line w = (Raise "Workflow has no data!", w).
Proof.
  intros Hw. unfold_magic. rewrite Hw. reflexivity.
Qed.

(** C4: every [execute] call made by [snakemake] passes [nolock=True]. *)
Theorem snakemake_execute_nolock (line : string) (w w' : World)
    (o : Outcome bool) (ev : list Event) (cfg : ExecConfig) :
  snakemake E line w = (o, w') ->
  w_trace w' = w_trace w ++ ev ->
  EExecute cfg ∈ ev ->
  ex_nolock cfg = true.
Proof.
  intros Hrun Htr Hin.
  destruct (w_workflow w) as [wf|] eqn:Hw.
  2:{ rewrite (snakemake_no_session line w Hw) in Hrun. injection Hrun as <- <-.
      new_events Htr. set_solver. }
  snake_cases Hrun; new_events Htr; in_events Hin; reflexivity.
Qed.
(** C3: when [snakemake] calls [execute], it returns [execute]'s success
    indicator unchanged. *)
Theorem snakemake_returns_execute_result (line : string) (w w' : World)
    (o : Outcome bool) (ev : list Event) (cfg : ExecConfig) :
  snakemake E line w = (o, w') ->
  w_trace w' = w_trace w ++ ev ->
  EExecute cfg ∈ ev ->
  exists wf, w_workflow w = Some wf /\ o = Ok (engine_execute E cfg wf).
Proof.
  intros Hrun Htr Hin.
  destruct (w_workflow w) as [wf|] eqn:Hw.
  2:{ rewrite (snakemake_no_session line w Hw) in Hrun. injection Hrun as <- <-.
      new_events Htr. set_solver. }
  snake_cases Hrun; new_events Htr; in_events Hin;
    exists wf; split; congruence.
Qed.

(** C10: after [execute], [updated_rules] is emptied on success and kept
    on failure. *)
Theorem snakemake_updated_rules_after_execute (line : string) (w w' : World)
    (o : Outcome bool) (ev : list Event) (cfg : ExecConfig) :
  snakemake E line w = (o, w') ->
  w_trace w' = w_trace w ++ ev ->
  EExecute cfg ∈ ev ->
  exists wf, w_workflow w = Some wf /\
    w_updated w' = if engine_execute E cfg wf then [] else w_updated w.
Proof.
  intros Hrun Htr Hin.
  destruct (w_workflow w) as [wf|] eqn:Hw.
  2:{ rewrite (snakemake_no_session line w Hw) in Hrun. injection Hrun as <- <-.
      new_events Htr. set_solver. }
  snake_cases Hrun; new_events Htr; in_events Hin;
    exists wf; split; try reflexivity;
    match goal with Hx : engine_execute _ _ _ = _ |- _ => rewrite Hx end; reflexivity.
Qed.

(** C9: [snakemake] reads its argument line only through the option
    parser applied to the [shlex.split] tokens: two lines whose token lists
    parse alike behave alike. *)
Theorem snakemake_through_parser (l1 l2 : string) (toks1 toks2 : list string)
    (w : World) :
  shlex_split E l1 = Some toks1 ->
  shlex_split E l2 = Some toks2 ->
  parse_args E toks1 = parse_args E toks2 ->
  snakemake E l1 w = snakemake E l2 w.
Proof.
  intros H1 H2 Hp. unfold snakemake, mbind, M_bind, gets, lift_opt.
  destruct (w_workflow w); [|reflexivity].
  rewrite H1, H2. simpl. rewrite Hp. reflexivity.
Qed.

(** C7: [get_workflow] builds the session, with a new placeholder file as
    its snakefile, only when there is none; with a session it returns it
    and changes nothing, so calling it twice is calling it once. *)
Theorem get_workflow_once (w : World) :
  (match w_workflow w with
   | Some wf => get_workflow w = (Ok wf, w)
   | None =>
       exists wf w1,
         get_workflow w = (Ok wf, w1) /\
         w_workflow w1 = Some wf /\
         w_root w1 = Some (wf_snakefile wf) /\
         (wf_snakefile wf ∉ dom (w_fs w)) /\
         w_trace w1 = w_trace w ++ [ENewTemp (wf_snakefile wf);
                                    ENewWorkflow (wf_snakefile wf)]
   end) /\
  (get_workflow ≫= (fun _ => get_workflow)) w = get_workflow w.
Proof.
  unfold get_workflow, named_temp, new_workflow, mbind, M_bind, gets, modify,
    emit, mret, M_ret.
  destruct (w_workflow w) as [wf|] eqn:Hw; simpl.
  - rewrite Hw. split; reflexivity.
  - rewrite Hw. split.
    + do 2 eexists. split; [reflexivity|]. simpl.
      split; [reflexivity|]. split; [reflexivity|].
      split; [apply is_fresh|]. rewrite <- app_assoc. reflexivity.
    + reflexivity.
Qed.

(** [pop_and_record_all] deletes the names from the session's rules, one
    after the other, and appends them to [updated_rules]. *)
Lemma pop_and_record_all_spec (names : list string) (w : World) (wf : Workflow Rule) :
  w_workflow w = Some wf ->
  pop_and_record_all names w =
    (Ok tt, set_updated (w_updated w ++ names)
              (set_workflow (Some (drop_rules wf names)) w)).
Proof.
  revert w wf. induction names as [|n r IH]; intros w wf Hw.
  - destruct w as [ow ? ? ? ? ? ? ?]; simpl in Hw; subst ow.
    destruct wf. unfold drop_rules. simpl. rewrite app_nil_r. reflexivity.
  - simpl. unfold pop_and_record, mbind, M_bind, gets, modify, session_rules, set_rules.
    rewrite Hw. simpl.
    rewrite (IH _ {| wf_id := wf_id wf; wf_snakefile := wf_snakefile wf;
                     wf_rules := delete n (wf_rules wf) |}) by reflexivity.
    destruct w; simpl in *. rewrite <- app_assoc. reflexivity.
Qed.

Lemma sinclude_stage_spec (cell : string) (w w1 : World) (p : string) (flag : bool) :
  sinclude_stage E cell w = (Ok (p, flag), w1) ->
  exists code wf0 evs,
    snake_parse E cell = Some code /\
    (p ∉ dom (w_fs w)) /\
    w_fs w1 !! p = Some cell /\
    flag = bool_decide (size (session_rules w) = 0) /\
    wf_rules wf0 = session_rules w /\
    w_workflow w1 = Some (drop_rules wf0 (rule_names_of_code code)) /\
    w_updated w1 = w_updated w ++ rule_names_of_code code /\
    w_trace w1 = w_trace w ++ evs /\
    (forall q f, EInclude q f ∉ evs).
Proof.
  intros H.
  unfold sinclude_stage, get_workflow, named_temp, new_workflow, file_write, file_close,
    get_rule_names, read_file, mbind, M_bind, gets, modify, emit, mret, M_ret,
    lift_opt in H.
  destruct (w_workflow w) as [wf|] eqn:Hw; try rewrite Hw in H; simpl in H;
    rewrite lookup_insert_eq in H; simpl in H; rewrite lookup_insert_eq in H;
    simpl in H; change ("" +:+ cell) with cell in H;
    destruct (snake_parse E cell) as [code|] eqn:Hp; simpl in H;
    try discriminate;
    erewrite pop_and_record_all_spec in H by (simpl; first [eassumption | reflexivity]);
    injection H as <- <- <-; unfold session_rules; rewrite Hw.
  - exists code, wf.
    eexists [ENewTemp _; EWrite _ cell; EClose _].
    simpl. rewrite lookup_insert_eq.
    split; [reflexivity|]. split; [apply is_fresh|].
    do 5 (split; [reflexivity|]). split.
    + rewrite <- !app_assoc. reflexivity.
    + intros q f Hin. in_events Hin.
  - exists code, {| wf_id := w_next_id w; wf_snakefile := fresh (dom (w_fs w));
                    wf_rules := ∅ |}.
    eexists [ENewTemp _; ENewWorkflow _; ENewTemp _; EWrite _ cell; EClose _].
    simpl. rewrite lookup_insert_eq.
    split; [reflexivity|]. split.
    + assert (Hsub : dom (w_fs w) ⊆ dom (<[fresh (dom (w_fs w)):=""]> (w_fs w)))
        by (rewrite dom_insert_L; set_solver).
      intros Hin. apply (is_fresh (dom (<[fresh (dom (w_fs w)):=""]> (w_fs w)))).
      apply Hsub. exact Hin.
    + do 5 (split; [reflexivity|]). split.
      * rewrite <- !app_assoc. reflexivity.
      * intros q f Hin. in_events Hin.
Qed.

Abbreviation NI := (@no_include Rule CV Resources _).
Abbreviation EF := (@emits_first Rule CV Resources _).

Lemma no_include_ret {A} (a : A) : NI (mret a).
Proof. intros w o w' H. injection H as <- <-. exists []. split; [by rewrite app_nil_r|set_solver]. Qed.

Lemma no_include_raise {A} (msg : string) : NI (raise (A:=A) msg).
Proof. intros w o w' H. injection H as <- <-. exists []. split; [by rewrite app_nil_r|set_solver]. Qed.

Lemma no_include_gets {A} (f : World -> A) : NI (gets f).
Proof. intros w o w' H. injection H as <- <-. exists []. split; [by rewrite app_nil_r|set_solver]. Qed.

Lemma no_include_modify (f : World -> World) :
  (forall w, w_trace (f w) = w_trace w) -> NI (modify f).
Proof.
  intros Hf w o w' H. injection H as <- <-. exists []. rewrite Hf, app_nil_r.
  split; [done|set_solver].
Qed.

Lemma no_include_emit (e : Event) :
  (forall q f, e <> EInclude q f) -> NI (emit e).
Proof.
  intros He w o w' H. injection H as <- <-. exists [e]. split; [done|].
  intros q f Hin. apply elem_of_cons in Hin as [Hin|Hin]; [by eapply He|set_solver].
Qed.

Lemma no_include_bind {A B} (m : M A) (f : A -> M B) :
  NI m -> (forall a, NI (f a)) -> NI (m ≫= f).
Proof.
  intros Hm Hf w o w' H. unfold mbind, M_bind in H.
  destruct (m w) as [[a|e] w1] eqn:Hmw.
  - destruct (Hm _ _ _ Hmw) as (evs1 & Ht1 & Hn1).
    destruct (Hf a _ _ _ H) as (evs2 & Ht2 & Hn2).
    exists (evs1 ++ evs2). rewrite Ht2, Ht1, app_assoc. split; [done|].
    intros q g Hin. apply elem_of_app in Hin as [Hin|Hin]; [by eapply Hn1|by eapply Hn2].
  - injection H as <- <-. by eapply Hm.
Qed.

Lemma no_include_lift_opt {A} (msg : string) (x : option A) : NI (lift_opt msg x).
Proof. destruct x; [apply no_include_ret|apply no_include_raise]. Qed.

Lemma set_rules_trace (rs : gmap string Rule) (w : World) :
  w_trace (set_rules rs w) = w_trace w.
Proof. unfold set_rules. by destruct (w_workflow w). Qed.

(** Closes [no_include] goals for the building blocks of the magics. *)
Ltac no_include_tac :=
  repeat first
    [ assumption
    | apply no_include_bind; intros
    | apply no_include_ret | apply no_include_raise | apply no_include_gets
    | apply no_include_lift_opt
    | apply no_include_modify; intros; first [reflexivity | apply set_rules_trace]
    | apply no_include_emit; intros; discriminate
    | match goal with |- no_include (match ?x with _ => _ end) => destruct x end ].

Lemma sinclude_stage_no_include (cell : string) : NI (sinclude_stage E cell).
Proof.
  unfold sinclude_stage, get_workflow, named_temp, new_workflow, file_write,
    file_close, get_rule_names, read_file.
  no_include_tac.
  match goal with |- no_include (pop_and_record_all ?l) => induction l end;
    simpl; unfold pop_and_record; no_include_tac.
Qed.

Lemma bind_inv {A B} (m : M A) (f : A -> M B) (w w' : World) (o : Outcome B) :
  (m ≫= f) w = (o, w') ->
  (exists a w1, m w = (Ok a, w1) /\ f a w1 = (o, w')) \/
  (exists e, m w = (Raise e, w') /\ o = Raise e).
Proof.
  unfold mbind, M_bind. destruct (m w) as [[a|e] w1].
  - left. by exists a, w1.
  - intros H. injection H as <- <-. right. by exists e.
Qed.

Lemma emits_first_emit {B} (e : Event) (K : M B) :
  NI K -> EF e (emit e ≫= (fun _ => K)).
Proof.
  intros HK w o w' H. apply bind_inv in H as [(a & w1 & He & Hk)|(x & He & _)].
  - injection He as <- <-. destruct (HK _ _ _ Hk) as (evs & Ht & Hn).
    exists evs. rewrite Ht. simpl. rewrite <- app_assoc. split; [done|exact Hn].
  - discriminate.
Qed.

Lemma emits_first_bind {A B} (e : Event) (m : M A) (f : A -> M B) :
  EF e m -> (forall a, NI (f a)) -> EF e (m ≫= f).
Proof.
  intros Hm Hf w o w' H. apply bind_inv in H as [(a & w1 & Hmw & Hk)|(x & Hmw & _)].
  - destruct (Hm _ _ _ Hmw) as (evs1 & Ht1 & Hn1).
    destruct (Hf a _ _ _ Hk) as (evs2 & Ht2 & Hn2).
    exists (evs1 ++ evs2). rewrite Ht2, Ht1, <- app_assoc. split; [done|].
    intros q g Hin. apply elem_of_app in Hin as [Hin|Hin]; [by eapply Hn1|by eapply Hn2].
  - by eapply Hm.
Qed.

(** A run of [sinclude] whose trace records an [include p flag] call went
    through lines 186-202 with result [(p, flag)]: [include] is called with
    the staged path and flag, and only then. *)
Lemma sinclude_include_stage (line cell : string) (w w' : World)
    (o : Outcome string) (ev : list Event) (p : string) (flag : bool) :
  sinclude E line cell w = (o, w') ->
  w_trace w' = w_trace w ++ ev ->
  EInclude p flag ∈ ev ->
  exists w1, sinclude_stage E cell w = (Ok (p, flag), w1).
Proof.
  intros Hrun Htr Hin. unfold sinclude in Hrun.
  apply bind_inv in Hrun as [([p0 f0] & w1 & Hs & Hk)|(e & Hs & _)].
  - cbv beta iota in Hk.
    assert (Hef : EF (EInclude p0 f0)
                    (include E p0 f0 ≫= (fun _ =>
                       unlink p0;; rs ← gets session_rules;
                       mret ("Workflow now has " +:+ pretty (size rs) +:+ " rules")))).
    { apply emits_first_bind.
      - unfold include. apply emits_first_emit. unfold read_file. no_include_tac.
      - intros _. unfold unlink. no_include_tac. }
    destruct (Hef _ _ _ Hk) as (evs2 & Ht2 & Hn2).
    destruct (sinclude_stage_no_include cell _ _ _ Hs) as (evs1 & Ht1 & Hn1).
    rewrite Ht2, Ht1, <- app_assoc in Htr. apply app_inv_head in Htr. subst ev.
    apply elem_of_app in Hin as [Hin|Hin]; [by apply Hn1 in Hin|].
    apply elem_of_cons in Hin as [Heq|Hin]; [|by apply Hn2 in Hin].
    injection Heq as -> ->. by exists w1.
  - destruct (sinclude_stage_no_include cell _ _ _ Hs) as (evs1 & Ht1 & Hn1).
    rewrite Ht1 in Htr. apply app_inv_head in Htr. subst ev. by apply Hn1 in Hin.
Qed.

Lemma drop_rules_lookup (rs : gmap string Rule) (names : list string) (k : string) :
  foldl (fun rs n => delete n rs) rs names !! k =
  if decide (k ∈ names) then None else rs !! k.
Proof.
  revert rs. induction names as [|n r IH]; intros rs; cbn [foldl].
  - case_decide as Hk; [set_solver|done].
  - rewrite IH. case_decide as Hr; [case_decide as Hnr; [done|set_solver]|].
    case_decide as Hnr.
    + apply elem_of_cons in Hnr as [->|Hnr]; [apply lookup_delete_eq|contradiction].
    + apply lookup_delete_ne. intros ->. apply Hnr. set_solver.
Qed.

(** C5: when [sinclude] calls [include], the path it passes names a file
    that did not exist before the call and holds the cell text verbatim at
    the time of the call (the state [w1] after lines 186-202), and the
    overwrite-first-rule flag is true exactly when the session had no rules
    before the call. *)
Theorem sinclude_includes_staged_cell (line cell : string) (w w' : World)
    (o : Outcome string) (ev : list Event) (p : string) (flag : bool) :
  sinclude E line cell w = (o, w') ->
  w_trace w' = w_trace w ++ ev ->
  EInclude p flag ∈ ev ->
  exists w1,
    sinclude_stage E cell w = (Ok (p, flag), w1) /\
    (p ∉ dom (w_fs w)) /\
    w_fs w1 !! p = Some cell /\
    flag = bool_decide (size (session_rules w) = 0).
Proof.
  intros Hrun Htr Hin.
  destruct (sinclude_include_stage line cell w w' o ev p flag Hrun Htr Hin) as [w1 Hs].
  destruct (sinclude_stage_spec cell w w1 p flag Hs)
    as (code & wf0 & evs & _ & Hfresh & Hcell & Hflag & _).
  exists w1. done.
Qed.

(** C6: when [sinclude] calls [include], in the state [w1] it calls it in,
    every rule name parsed from the staged cell has been removed from the
    session's rule table, the other rules are untouched, and all the
    parsed names, whether or not they named a rule, have been appended to
    [updated_rules]. *)
Theorem sinclude_replaces_parsed_rules (line cell : string) (w w' : World)
    (o : Outcome string) (ev : list Event) (p : string) (flag : bool) :
  sinclude E line cell w = (o, w') ->
  w_trace w' = w_trace w ++ ev ->
  EInclude p flag ∈ ev ->
  exists w1 code,
    sinclude_stage E cell w = (Ok (p, flag), w1) /\
    snake_parse E cell = Some code /\
    w_updated w1 = w_updated w ++ rule_names_of_code code /\
    (forall n, n ∈ rule_names_of_code code -> session_rules w1 !! n = None) /\
    (forall n, n ∉ rule_names_of_code code -> session_rules w1 !! n = session_rules w !! n).
Proof.
  intros Hrun Htr Hin.
  destruct (sinclude_include_stage line cell w w' o ev p flag Hrun Htr Hin) as [w1 Hs].
  destruct (sinclude_stage_spec cell w w1 p flag Hs)
    as (code & wf0 & evs & Hp & _ & _ & _ & Hrules & Hwf & Hupd & _).
  exists w1, code. split; [done|]. split; [done|]. split; [done|].
  unfold session_rules. rewrite Hwf. unfold drop_rules. simpl.
  split; intros n Hn; rewrite drop_rules_lookup.
  - by rewrite decide_True.
  - rewrite decide_False by done. rewrite Hrules. reflexivity.
Qed.

(** C8: [sconfig] stages the cell in a new temporary file, has the engine
    load it, merges the loaded mapping into the global config as
    [get_workflow] left it (keys of the loaded mapping win, as with
    [dict.update]; a session built by that call starts from an empty
    config), and deletes the file: the trace records exactly these steps in
    this order, after the [get_workflow] call. *)
Theorem sconfig_stages_loads_merges (line cell : string) (w : World)
    (loaded : gmap string CV) :
  load_configfile E cell = Some loaded ->
  exists p w',
    sconfig E line cell w = (Ok tt, w') /\
    (p ∉ dom (w_fs w)) /\
    w_config w' = loaded ∪ w_config (snd (get_workflow w)) /\
    w_fs w' = w_fs (snd (get_workflow w)) /\
    w_trace w' = w_trace (snd (get_workflow w)) ++
      [ENewTemp p; EWrite p cell; EClose p; ELoadConfig p; EConfigUpdate; EUnlink p].
Proof.
  intros Hl.
  unfold sconfig, get_workflow, named_temp, new_workflow, file_write, file_close,
    read_file, unlink, mbind, M_bind, gets, modify, emit, mret, M_ret, lift_opt.
  destruct (w_workflow w) as [wf|] eqn:Hw; simpl;
    rewrite lookup_insert_eq; simpl; rewrite lookup_insert_eq; simpl;
    change ("" +:+ cell) with cell; rewrite Hl; simpl; rewrite lookup_insert_eq; simpl.
  - exists (fresh (dom (w_fs w))). eexists. split; [reflexivity|]. simpl.
    split; [apply is_fresh|]. split; [reflexivity|]. split.
    + rewrite delete_insert_eq. apply delete_insert_id, not_elem_of_dom_1, is_fresh.
    + rewrite <- !app_assoc. reflexivity.
  - set (fs1 := <[fresh (dom (w_fs w)):=""]> (w_fs w)).
    exists (fresh (dom fs1)). eexists. split; [reflexivity|]. simpl.
    split.
    + assert (Hsub : dom (w_fs w) ⊆ dom fs1) by (subst fs1; rewrite dom_insert_L; set_solver).
      intros Hin. apply (is_fresh (dom fs1)). apply Hsub. exact Hin.
    + split; [reflexivity|]. split.
      * rewrite delete_insert_eq. apply delete_insert_id, not_elem_of_dom_1, is_fresh.
      * rewrite <- !app_assoc. reflexivity.
Qed.

(** ** Further properties of the magics. *)

(** X1: a [--greediness] outside [0, 1] makes [snakemake] return [False]
    (lines 127-130) before the session is looked up again, checked or
    executed: nothing changes, not even the trace. *)
Theorem snakemake_greediness_out_of_range (line : string) (w : World)
    (wf : Workflow Rule) (toks : list string) (args : Args) (r : Resources) (g : Q) :
  w_workflow w = Some wf ->
  shlex_split E line = Some toks ->
  parse_args E toks = Some args ->
  parse_resources E args = Some r ->
  a_greediness args = Some g ->
  ~ (0 <= g <= 1)%Q ->
  snakemake E line w = (Ok false, w).
Proof.
  intros Hw Hs Hp Hr Hg Hn. unfold_magic. rewrite Hw, Hs. simpl.
  rewrite Hp. simpl. rewrite Hr. simpl. rewrite Hg.
  destruct (Qle_bool 0 g) eqn:H0, (Qle_bool g 1) eqn:H1; try reflexivity.
  exfalso. apply Hn. split; apply Qle_bool_iff; assumption.
Qed.

(** X2: without [--forcerun], [execute] is called with [forcerun] the set
    of the rules recorded in [updated_rules] (line 93, else branch). *)
Theorem snakemake_forcerun_default (line : string) (w w' : World)
    (o : Outcome bool) (ev : list Event) (cfg : ExecConfig)
    (toks : list string) (args : Args) :
  snakemake E line w = (o, w') ->
  w_trace w' = w_trace w ++ ev ->
  EExecute cfg ∈ ev ->
  shlex_split E line = Some toks ->
  parse_args E toks = Some args ->
  a_forcerun args = None ->
  ex_forcerun cfg = list_to_set (w_updated w).
Proof.
  intros Hrun Htr Hin Hs Hp Hf.
  unfold_magic. simpl in Hrun.
  destruct (w_workflow w) as [wf|] eqn:Hw; simpl in Hrun.
  2:{ injection Hrun as <- <-. new_events Htr. set_solver. }
  rewrite Hs in Hrun. simpl in Hrun. rewrite Hp in Hrun. simpl in Hrun.
  rewrite Hf in Hrun.
  repeat snake_step Hrun; injection Hrun as <- <-; new_events Htr; in_events Hin;
    reflexivity.
Qed.

(** X3: when [workflow.check()] fails, [snakemake] never calls [execute],
    keeps [updated_rules] and does not report success. *)
Theorem snakemake_check_failure (line : string) (w w' : World)
    (o : Outcome bool) (ev : list Event) (wf : Workflow Rule) :
  w_workflow w = Some wf ->
  engine_check E wf = false ->
  snakemake E line w = (o, w') ->
  w_trace w' = w_trace w ++ ev ->
  (forall cfg, EExecute cfg ∉ ev) /\ w_updated w' = w_updated w /\ o <> Ok true.
Proof.
  intros Hw Hc Hrun Htr.
  snake_cases Hrun; try congruence; new_events Htr;
    (split; [intros cfg Hin; in_events Hin|]); split; try reflexivity; discriminate.
Qed.


(** X5: after [%_reset_workflow], [%snakemake] raises as if no cell had
    been run, whatever it is given. *)
Theorem reset_then_snakemake (line line' : string) (w : World) :
  (_reset_workflow line;; snakemake E line') w =
    (Raise "Workflow has no data!", set_workflow None w).
Proof. reflexivity. Qed.

(** X6: after [%_reset_workflow], the next [get_workflow] (here through
    [%_workflow]) builds a new session with no rules on a new placeholder
    file and an empty global config; [updated_rules] and the recorded cell
    files of the old session are kept. *)
Theorem reset_then_workflow (line line' : string) (w : World) :
  exists wf w',
    (_reset_workflow line;; _workflow line') w = (Ok wf, w') /\
    w_workflow w' = Some wf /\
    wf_rules wf = ∅ /\
    wf_id wf = w_next_id w /\
    (wf_snakefile wf ∉ dom (w_fs w)) /\
    w_root w' = Some (wf_snakefile wf) /\
    w_updated w' = w_updated w /\ w_cells w' = w_cells w /\ w_config w' = ∅.
Proof.
  do 2 eexists. split; [reflexivity|]. simpl.
  split; [reflexivity|]. split; [reflexivity|]. split; [reflexivity|].
  split; [apply is_fresh|]. repeat split.
Qed.

Lemma skip_space_app (ws l : list ascii) :
  Forall (fun c => is_space c = true) ws -> skip_space (ws ++ l) = skip_space l.
Proof. induction 1 as [|c ws Hc _ IH]; simpl; [done|]. by rewrite Hc. Qed.

Lemma take_nonquote_app (n rest : list ascii) :
  Forall (fun c => c <> "'"%char) n ->
  take_nonquote (n ++ "'"%char :: rest) = (n, "'"%char :: rest).
Proof.
  induction 1 as [|c n Hc _ IH]; simpl; [done|].
  destruct (Ascii.eqb_spec c "'"%char); [contradiction|]. by rewrite IH.
Qed.

Lemma take_nonquote_noquote (l : list ascii) :
  Forall (fun c => c <> "'"%char) (fst (take_nonquote l)).
Proof.
  induction l as [|c l IH]; simpl; [constructor|].
  destruct (Ascii.eqb_spec c "'"%char); simpl; [constructor|].
  destruct (take_nonquote l) as [g r]. simpl in *. by constructor.
Qed.

(** X7: [rule_rexp] matches a compiled rule header: after leading white
    space, [@workflow.rule(name='NAME'...] yields group 1 = [NAME] for any
    nonempty [NAME] without a quote, whatever follows the closing quote. *)
Theorem rule_rexp_match_roundtrip (ws n rest : list ascii) :
  Forall (fun c => is_space c = true) ws ->
  n <> [] ->
  Forall (fun c => c <> "'"%char) n ->
  rule_rexp_match (string_of_list_ascii
    (ws ++ list_ascii_of_string "@workflow.rule(name='" ++ n ++ "'"%char :: rest)) =
  Some (string_of_list_ascii n).
Proof.
  intros Hws Hn Hq. unfold rule_rexp_match.
  rewrite list_ascii_of_string_of_list_ascii, skip_space_app by exact Hws.
  simpl. rewrite take_nonquote_app by exact Hq.
  destruct n as [|c n]; [contradiction|]. reflexivity.
Qed.

Lemma rule_rexp_match_sound (line n : string) :
  rule_rexp_match line = Some n ->
  n <> "" /\ Forall (fun c => c <> "'"%char) (list_ascii_of_string n).
Proof.
  unfold rule_rexp_match, mbind, option_bind. intros H.
  repeat case_match; simplify_eq.
  match goal with Ht : take_nonquote ?l = _ |- _ =>
    pose proof (take_nonquote_noquote l) as Hq; rewrite Ht in Hq end.
  split; [discriminate|]. by rewrite list_ascii_of_string_of_list_ascii.
Qed.

(** X8: every rule name [get_rule_names] yields is nonempty and contains
    no quote. *)
Theorem rule_names_nonempty_noquote (code n : string) :
  n ∈ rule_names_of_code code ->
  n <> "" /\ Forall (fun c => c <> "'"%char) (list_ascii_of_string n).
Proof.
  unfold rule_names_of_code. intros Hn.
  apply list_elem_of_omap in Hn as (line & _ & Hm).
  exact (rule_rexp_match_sound line n Hm).
Qed.

Lemma list_ascii_of_string_append (s1 s2 : string) :
  list_ascii_of_string (s1 +:+ s2) = list_ascii_of_string s1 ++ list_ascii_of_string s2.
Proof. induction s1 as [|c s1 IH]; [reflexivity|]. simpl. by rewrite IH. Qed.

Lemma split_nl_nonempty (l : list ascii) : split_nl l <> [].
Proof.
  destruct l as [|c l]; simpl; [discriminate|].
  destruct (Ascii.eqb c newline); [discriminate|]. destruct (split_nl l); discriminate.
Qed.

Lemma split_nl_app (a b : list ascii) :
  split_nl (a ++ newline :: b) = split_nl a ++ split_nl b.
Proof.
  induction a as [|c a IH]; simpl; [reflexivity|].
  rewrite IH. destruct (Ascii.eqb c newline); [reflexivity|].
  destruct (split_nl a) eqn:Ha; [by apply split_nl_nonempty in Ha|]. reflexivity.
Qed.

(** X9: [get_rule_names] reads the code line by line: the names found in
    two blocks of code joined by a newline are those of the first block
    followed by those of the second. *)
Theorem rule_names_of_code_app (c1 c2 : string) :
  rule_names_of_code (c1 +:+ String newline c2) =
    rule_names_of_code c1 ++ rule_names_of_code c2.
Proof.
  unfold rule_names_of_code, split_lines.
  rewrite list_ascii_of_string_append. cbn [list_ascii_of_string].
  by rewrite split_nl_app, map_app, omap_app.
Qed.




(** X11: when the snakefile parser rejects the cell, [%%sinclude] raises
    after staging it: the staged file is left on disk holding the cell and
    recorded in [tempfiles['cells']], and neither [updated_rules] nor the
    session's rules change. *)
Theorem sinclude_parse_failure (line cell : string) (w : World) :
  snake_parse E cell = None ->
  exists p w',
    sinclude E line cell w = (Raise "SyntaxError", w') /\
    (p ∉ dom (w_fs w)) /\
    w_fs w' !! p = Some cell /\
    w_cells w' = w_cells w ++ [p] /\
    w_updated w' = w_updated w /\
    session_rules w' = session_rules w.
Proof.
  intros Hp.
  unfold sinclude, sinclude_stage, get_workflow, named_temp, new_workflow, file_write,
    file_close, get_rule_names, read_file, mbind, M_bind, gets, modify, emit, mret,
    M_ret, lift_opt, raise, session_rules.
  destruct (w_workflow w) as [wf|] eqn:Hw; simpl;
    rewrite lookup_insert_eq; simpl; rewrite lookup_insert_eq; simpl;
    change ("" +:+ cell) with cell; rewrite Hp; simpl.
  - do 2 eexists. split; [reflexivity|]. simpl.
    split; [apply is_fresh|]. rewrite insert_insert_eq, lookup_insert_eq.
    split; [reflexivity|]. repeat split. by rewrite Hw.
  - set (fs1 := <[fresh (dom (w_fs w)):=""]> (w_fs w)).
    do 2 eexists. split; [reflexivity|]. simpl.
    split.
    + assert (Hsub : dom (w_fs w) ⊆ dom fs1) by (subst fs1; rewrite dom_insert_L; set_solver).
      intros Hin. apply (is_fresh (dom fs1)). apply Hsub. exact Hin.
    + rewrite insert_insert_eq, lookup_insert_eq. split; [reflexivity|]. repeat split.
Qed.

(** X12: when the config loader rejects the cell, [%%sconfig] raises after
    staging it: the config is as [get_workflow] left it, and the staged
    file, a new one, is left on disk holding the cell. *)
Theorem sconfig_load_failure (line cell : string) (w : World) :
  load_configfile E cell = None ->
  exists p w',
    sconfig E line cell w = (Raise "YAMLError", w') /\
    (p ∉ dom (w_fs w)) /\
    w_fs w' !! p = Some cell /\
    w_config w' = w_config (snd (get_workflow w)).
Proof.
  intros Hl.
  unfold sconfig, get_workflow, named_temp, new_workflow, file_write, file_close,
    read_file, unlink, mbind, M_bind, gets, modify, emit, mret, M_ret, lift_opt, raise.
  destruct (w_workflow w) as [wf|] eqn:Hw; simpl;
    rewrite lookup_insert_eq; simpl; rewrite lookup_insert_eq; simpl;
    change ("" +:+ cell) with cell; rewrite Hl; simpl.
  - do 2 eexists. split; [reflexivity|]. simpl.
    split; [apply is_fresh|]. rewrite insert_insert_eq, lookup_insert_eq. done.
  - set (fs1 := <[fresh (dom (w_fs w)):=""]> (w_fs w)).
    do 2 eexists. split; [reflexivity|]. simpl.
    split.
    + assert (Hsub : dom (w_fs w) ⊆ dom fs1) by (subst fs1; rewrite dom_insert_L; set_solver).
      intros Hin. apply (is_fresh (dom fs1)). apply Hsub. exact Hin.
    + rewrite insert_insert_eq, lookup_insert_eq. done.
Qed.

(** X13: [%%sconfig] never touches the rules: whether it succeeds or
    raises, [updated_rules], [tempfiles['cells']] and the session are as
    [get_workflow] left them. *)
Theorem sconfig_keeps_rules (line cell : string) (w : World) :
  let w' := snd (sconfig E line cell w) in
  w_updated w' = w_updated w /\ w_cells w' = w_cells w /\
  w_workflow w' = w_workflow (snd (get_workflow w)).
Proof.
  unfold sconfig, get_workflow, named_temp, new_workflow, file_write, file_close,
    read_file, unlink, mbind, M_bind, gets, modify, emit, mret, M_ret, lift_opt, raise.
  destruct (w_workflow w) as [wf|] eqn:Hw; simpl;
    rewrite lookup_insert_eq; simpl; rewrite lookup_insert_eq; simpl;
    destruct (load_configfile E _); simpl; try rewrite lookup_insert_eq; simpl;
    repeat split; congruence.
Qed.

End Proofs.

(** ** Witnesses: the theorems applied on the concrete sessions of
    [TestEngine]. *)

Lemma snakemake_no_session_witness :
  w_workflow TestEngine.w0 = None /\
  snakemake TestEngine.engine "t" TestEngine.w0 =
    (Raise "Workflow has no data!", TestEngine.w0).
Proof.
  split; [reflexivity|]. apply (snakemake_no_session TestEngine.engine). reflexivity.
Defined.

(** The [execute] configuration recorded in a concrete list of new events. *)
Ltac pick_exec evs :=
  lazymatch eval vm_compute in evs with
  | [_; EExecute ?c] => exists c
  end.

Ltac in_second := apply elem_of_cons; right; apply elem_of_cons; left; reflexivity.

Ltac in_list := repeat first [apply elem_of_cons; left; reflexivity | apply elem_of_cons; right].

Lemma snakemake_execute_nolock_witness :
  exists cfg,
    TestEngine.ev_t = [ECheck; EExecute cfg] /\
    snakemake TestEngine.engine "t" TestEngine.w_inc = (TestEngine.o_t, TestEngine.w_t) /\
    w_trace TestEngine.w_t = w_trace TestEngine.w_inc ++ TestEngine.ev_t /\
    ex_nolock cfg = true.
Proof.
  pick_exec TestEngine.ev_t.
  assert (Hev : TestEngine.ev_t = [ECheck; EExecute _]) by (vm_compute; reflexivity).
  assert (Hrun : snakemake TestEngine.engine "t" TestEngine.w_inc =
                 (TestEngine.o_t, TestEngine.w_t)) by (vm_compute; reflexivity).
  assert (Htr : w_trace TestEngine.w_t = w_trace TestEngine.w_inc ++ TestEngine.ev_t)
    by (vm_compute; reflexivity).
  do 3 (split; [assumption|]).
  apply (snakemake_execute_nolock TestEngine.engine "t" _ _ _ _ _ Hrun Htr).
  rewrite Hev. in_second.
Defined.

Lemma snakemake_returns_execute_result_witness :
  exists cfg,
    TestEngine.ev_t = [ECheck; EExecute cfg] /\
    snakemake TestEngine.engine "t" TestEngine.w_inc = (TestEngine.o_t, TestEngine.w_t) /\
    w_trace TestEngine.w_t = w_trace TestEngine.w_inc ++ TestEngine.ev_t /\
    exists wf, w_workflow TestEngine.w_inc = Some wf /\
      TestEngine.o_t = Ok (engine_execute TestEngine.engine cfg wf).
Proof.
  pick_exec TestEngine.ev_t.
  assert (Hev : TestEngine.ev_t = [ECheck; EExecute _]) by (vm_compute; reflexivity).
  assert (Hrun : snakemake TestEngine.engine "t" TestEngine.w_inc =
                 (TestEngine.o_t, TestEngine.w_t)) by (vm_compute; reflexivity).
  assert (Htr : w_trace TestEngine.w_t = w_trace TestEngine.w_inc ++ TestEngine.ev_t)
    by (vm_compute; reflexivity).
  do 3 (split; [assumption|]).
  apply (snakemake_returns_execute_result TestEngine.engine "t" _ _ _ _ _ Hrun Htr).
  rewrite Hev. in_second.
Defined.

Lemma snakemake_updated_rules_after_execute_witness :
  exists cfg,
    TestEngine.ev_t = [ECheck; EExecute cfg] /\
    snakemake TestEngine.engine "t" TestEngine.w_inc = (TestEngine.o_t, TestEngine.w_t) /\
    w_trace TestEngine.w_t = w_trace TestEngine.w_inc ++ TestEngine.ev_t /\
    exists wf, w_workflow TestEngine.w_inc = Some wf /\
      w_updated TestEngine.w_t =
        if engine_execute TestEngine.engine cfg wf then [] else w_updated TestEngine.w_inc.
Proof.
  pick_exec TestEngine.ev_t.
  assert (Hev : TestEngine.ev_t = [ECheck; EExecute _]) by (vm_compute; reflexivity).
  assert (Hrun : snakemake TestEngine.engine "t" TestEngine.w_inc =
                 (TestEngine.o_t, TestEngine.w_t)) by (vm_compute; reflexivity).
  assert (Htr : w_trace TestEngine.w_t = w_trace TestEngine.w_inc ++ TestEngine.ev_t)
    by (vm_compute; reflexivity).
  do 3 (split; [assumption|]).
  apply (snakemake_updated_rules_after_execute TestEngine.engine "t" _ _ _ _ _ Hrun Htr).
  rewrite Hev. in_second.
Defined.

Lemma snakemake_through_parser_witness :
  shlex_split TestEngine.engine "t  --x" = Some ["t"; "--x"] /\
  shlex_split TestEngine.engine "t --x" = Some ["t"; "--x"] /\
  snakemake TestEngine.engine "t  --x" TestEngine.w_inc =
    snakemake TestEngine.engine "t --x" TestEngine.w_inc.
Proof.
  assert (H1 : shlex_split TestEngine.engine "t  --x" = Some ["t"; "--x"])
    by (vm_compute; reflexivity).
  assert (H2 : shlex_split TestEngine.engine "t --x" = Some ["t"; "--x"])
    by (vm_compute; reflexivity).
  split; [exact H1|]. split; [exact H2|].
  exact (snakemake_through_parser TestEngine.engine _ _ _ _ TestEngine.w_inc H1 H2 eq_refl).
Defined.

Lemma sinclude_includes_staged_cell_witness :
  sinclude TestEngine.engine "" TestEngine.cellA TestEngine.w0 =
    (TestEngine.o_inc, TestEngine.w_inc) /\
  w_trace TestEngine.w_inc = w_trace TestEngine.w0 ++ TestEngine.ev_inc /\
  EInclude "1" true ∈ TestEngine.ev_inc /\
  exists w1,
    sinclude_stage TestEngine.engine TestEngine.cellA TestEngine.w0 = (Ok ("1", true), w1) /\
    ("1" ∉ dom (w_fs TestEngine.w0)) /\
    w_fs w1 !! "1" = Some TestEngine.cellA /\
    true = bool_decide (size (session_rules TestEngine.w0) = 0).
Proof.
  assert (Hrun : sinclude TestEngine.engine "" TestEngine.cellA TestEngine.w0 =
                 (TestEngine.o_inc, TestEngine.w_inc)) by (vm_compute; reflexivity).
  assert (Htr : w_trace TestEngine.w_inc = w_trace TestEngine.w0 ++ TestEngine.ev_inc)
    by (vm_compute; reflexivity).
  assert (Hin : EInclude "1" true ∈ TestEngine.ev_inc) by (vm_compute; in_list).
  split; [exact Hrun|]. split; [exact Htr|]. split; [exact Hin|].
  exact (sinclude_includes_staged_cell TestEngine.engine _ _ _ _ _ _ _ _ Hrun Htr Hin).
Defined.

Lemma sinclude_replaces_parsed_rules_witness :
  sinclude TestEngine.engine "" TestEngine.cellA TestEngine.w0 =
    (TestEngine.o_inc, TestEngine.w_inc) /\
  w_trace TestEngine.w_inc = w_trace TestEngine.w0 ++ TestEngine.ev_inc /\
  EInclude "1" true ∈ TestEngine.ev_inc /\
  exists w1 code,
    sinclude_stage TestEngine.engine TestEngine.cellA TestEngine.w0 = (Ok ("1", true), w1) /\
    snake_parse TestEngine.engine TestEngine.cellA = Some code /\
    w_updated w1 = w_updated TestEngine.w0 ++ rule_names_of_code code /\
    (forall n, n ∈ rule_names_of_code code -> session_rules w1 !! n = None) /\
    (forall n, n ∉ rule_names_of_code code ->
       session_rules w1 !! n = session_rules TestEngine.w0 !! n).
Proof.
  assert (Hrun : sinclude TestEngine.engine "" TestEngine.cellA TestEngine.w0 =
                 (TestEngine.o_inc, TestEngine.w_inc)) by (vm_compute; reflexivity).
  assert (Htr : w_trace TestEngine.w_inc = w_trace TestEngine.w0 ++ TestEngine.ev_inc)
    by (vm_compute; reflexivity).
  assert (Hin : EInclude "1" true ∈ TestEngine.ev_inc) by (vm_compute; in_list).
  split; [exact Hrun|]. split; [exact Htr|]. split; [exact Hin|].
  exact (sinclude_replaces_parsed_rules TestEngine.engine _ _ _ _ _ _ _ _ Hrun Htr Hin).
Defined.

Lemma sconfig_stages_loads_merges_witness :
  load_configfile TestEngine.engine TestEngine.cellC = Some {[ "key" := TestEngine.cellC ]} /\
  exists p w',
    sconfig TestEngine.engine "" TestEngine.cellC TestEngine.w_inc = (Ok tt, w') /\
    (p ∉ dom (w_fs TestEngine.w_inc)) /\
    w_config w' = {[ "key" := TestEngine.cellC ]} ∪
                  w_config (snd (get_workflow TestEngine.w_inc)) /\
    w_fs w' = w_fs (snd (get_workflow TestEngine.w_inc)) /\
    w_trace w' = w_trace (snd (get_workflow TestEngine.w_inc)) ++
      [ENewTemp p; EWrite p TestEngine.cellC; EClose p; ELoadConfig p; EConfigUpdate;
       EUnlink p].
Proof.
  assert (Hl : load_configfile TestEngine.engine TestEngine.cellC =
               Some {[ "key" := TestEngine.cellC ]}) by reflexivity.
  split; [exact Hl|].
  exact (sconfig_stages_loads_merges TestEngine.engine "" _ TestEngine.w_inc _ Hl).
Defined.

(** C1: with [--forcerun] on the command line, the rules recorded in
    [updated_rules] are not passed to [execute].  After [%%sinclude] of a
    cell defining rule [a] ([updated_rules = ["a"]]), [%snakemake
    --forcerun b] calls [execute] with [forcerun = {b}], without [a]; the
    successful run then empties [updated_rules], so [a] is never forced. *)
Theorem snakemake_forcerun_drops_updated_rules :
  w_updated TestEngine.w_inc = ["a"] /\
  (exists cfg,
     TestEngine.ev_fb = [ECheck; EExecute cfg] /\
     ex_forcerun cfg = {[ "b" ]} /\
     "a" ∉ ex_forcerun cfg) /\
  w_updated (snd TestEngine.run_fb) = [].
Proof.
  split; [vm_compute; reflexivity|].
  split; [|vm_compute; reflexivity].
  pick_exec TestEngine.ev_fb.
  split; [vm_compute; reflexivity|].
  match goal with
  | |- ex_forcerun ?c = _ /\ _ =>
      assert (Hfr : ex_forcerun c = {[ "b" ]}) by (vm_compute; reflexivity)
  end.
  split; [exact Hfr|]. rewrite Hfr. set_solver.
Qed.



Lemma snakemake_greediness_out_of_range_witness :
  exists wf,
    w_workflow TestEngine.w_inc = Some wf /\
    snakemake TestEngine.engine_greedy "t" TestEngine.w_inc = (Ok false, TestEngine.w_inc).
Proof.
  destruct (w_workflow TestEngine.w_inc) as [wf|] eqn:Hw;
    [|vm_compute in Hw; discriminate].
  exists wf. split; [reflexivity|].
  apply (snakemake_greediness_out_of_range TestEngine.engine_greedy "t" TestEngine.w_inc
           wf ["t"] TestEngine.greedy_args tt (2 # 1)%Q Hw).
  - vm_compute. reflexivity.
  - reflexivity.
  - reflexivity.
  - reflexivity.
  - intros [_ H]. apply Qle_bool_iff in H. vm_compute in H. discriminate.
Defined.

Lemma snakemake_forcerun_default_witness :
  exists cfg,
    TestEngine.ev_t = [ECheck; EExecute cfg] /\
    ex_forcerun cfg = list_to_set (w_updated TestEngine.w_inc).
Proof.
  pick_exec TestEngine.ev_t.
  assert (Hev : TestEngine.ev_t = [ECheck; EExecute _]) by (vm_compute; reflexivity).
  assert (Hrun : snakemake TestEngine.engine "t" TestEngine.w_inc =
                 (TestEngine.o_t, TestEngine.w_t)) by (vm_compute; reflexivity).
  assert (Htr : w_trace TestEngine.w_t = w_trace TestEngine.w_inc ++ TestEngine.ev_t)
    by (vm_compute; reflexivity).
  split; [exact Hev|].
  apply (snakemake_forcerun_default TestEngine.engine "t" _ _ _ _ _
           ["t"] (TestEngine.mk_args ["t"] None false) Hrun Htr).
  - rewrite Hev. in_second.
  - vm_compute. reflexivity.
  - vm_compute. reflexivity.
  - reflexivity.
Defined.

Lemma snakemake_check_failure_witness :
  exists wf,
    w_workflow TestEngine.w_inc = Some wf /\
    engine_check TestEngine.engine_nocheck wf = false /\
    w_trace (snd (snakemake TestEngine.engine_nocheck "t" TestEngine.w_inc)) =
      w_trace TestEngine.w_inc ++ [@ECheck unit] /\
    (forall cfg, EExecute cfg ∉ [@ECheck unit]) /\
    w_updated (snd (snakemake TestEngine.engine_nocheck "t" TestEngine.w_inc)) =
      w_updated TestEngine.w_inc /\
    fst (snakemake TestEngine.engine_nocheck "t" TestEngine.w_inc) <> Ok true.
Proof.
  destruct (w_workflow TestEngine.w_inc) as [wf|] eqn:Hw;
    [|vm_compute in Hw; discriminate].
  assert (Htr : w_trace (snd (snakemake TestEngine.engine_nocheck "t" TestEngine.w_inc)) =
                w_trace TestEngine.w_inc ++ [ECheck]) by (vm_compute; reflexivity).
  exists wf. split; [reflexivity|]. split; [reflexivity|]. split; [exact Htr|].
  exact (snakemake_check_failure TestEngine.engine_nocheck "t" TestEngine.w_inc _ _ _ wf
           Hw eq_refl (surjective_pairing _) Htr).
Defined.

Lemma rule_rexp_match_roundtrip_witness :
  Forall (fun c => is_space c = true) [" "%char; " "%char] /\
  list_ascii_of_string "map" <> [] /\
  Forall (fun c => c <> "'"%char) (list_ascii_of_string "map") /\
  rule_rexp_match (string_of_list_ascii
    ([" "%char; " "%char] ++ list_ascii_of_string "@workflow.rule(name='" ++
     list_ascii_of_string "map" ++ "'"%char :: list_ascii_of_string ", lineno=3)")) =
  Some (string_of_list_ascii (list_ascii_of_string "map")).
Proof.
  assert (H1 : Forall (fun c => is_space c = true) [" "%char; " "%char])
    by (repeat constructor).
  assert (H2 : list_ascii_of_string "map" <> []) by discriminate.
  assert (H3 : Forall (fun c => c <> "'"%char) (list_ascii_of_string "map"))
    by (simpl; repeat constructor; discriminate).
  split; [exact H1|]. split; [exact H2|]. split; [exact H3|].
  exact (rule_rexp_match_roundtrip _ _ _ H1 H2 H3).
Defined.

Lemma rule_names_nonempty_noquote_witness :
  "a" ∈ rule_names_of_code TestEngine.cellA /\
  "a" <> "" /\ Forall (fun c => c <> "'"%char) (list_ascii_of_string "a").
Proof.
  assert (Hin : "a" ∈ rule_names_of_code TestEngine.cellA) by (vm_compute; in_list).
  split; [exact Hin|].
  exact (rule_names_nonempty_noquote TestEngine.cellA "a" Hin).
Defined.


Lemma sinclude_parse_failure_witness :
  snake_parse TestEngine.engine_noparse TestEngine.cellA = None /\
  exists p w',
    sinclude TestEngine.engine_noparse "" TestEngine.cellA TestEngine.w_inc =
      (Raise "SyntaxError", w') /\
    (p ∉ dom (w_fs TestEngine.w_inc)) /\
    w_fs w' !! p = Some TestEngine.cellA /\
    w_cells w' = w_cells TestEngine.w_inc ++ [p] /\
    w_updated w' = w_updated TestEngine.w_inc /\
    session_rules w' = session_rules TestEngine.w_inc.
Proof.
  split; [reflexivity|].
  exact (sinclude_parse_failure TestEngine.engine_noparse "" TestEngine.cellA
           TestEngine.w_inc eq_refl).
Defined.

Lemma sconfig_load_failure_witness :
  load_configfile TestEngine.engine_noload TestEngine.cellC = None /\
  exists p w',
    sconfig TestEngine.engine_noload "" TestEngine.cellC TestEngine.w_inc =
      (Raise "YAMLError", w') /\
    (p ∉ dom (w_fs TestEngine.w_inc)) /\
    w_fs w' !! p = Some TestEngine.cellC /\
    w_config w' = w_config (snd (get_workflow TestEngine.w_inc)).
Proof.
  split; [reflexivity|].
  exact (sconfig_load_failure TestEngine.engine_noload "" TestEngine.cellC
           TestEngine.w_inc eq_refl).
Defined.
